(** * KPI detection flow: retry loop, error classification and prompt template

    A shallow embedding of [src/ai/flows/kpi-detection.ts].

    The file has one piece of control logic, the body of [detectKpisFlow]:
    a [while] loop that calls the prompt, returns its output on success,
    and on a caught error either backs off and loops again (when
    [error.message.includes('429 Too Many Requests')] holds) or rethrows.
    Everything else is declarative: two schemas and a prompt template.

    The embedding is organised as follows.
    - [Js]: the JavaScript values that can be thrown or stored in a survey
      record, and the evaluation of [error.message.includes(...)].
    - [Template]: the prompt template as a syntax tree and its rendering.
    - [Flow]: the world (console, timers, calls made), the catch handler,
      the retry loop, [detectKpisFlow] and [detectKpis].
    - the theorems about them. *)

From Stdlib Require Import String Ascii List Bool NArith ZArith Arith Lia.
From Stdlib Require Import DecimalString.
From Equations Require Import Equations.
Import ListNotations.

Open Scope string_scope.
Set Warnings "-register-all".

(* ===================================================================== *)
(** ** JavaScript values and the classification expression *)
(* ===================================================================== *)

Module Js.

(** Values as they occur in this program: the cells of a survey record
    ([z.record(z.any())]) and whatever the prompt call may reject with
    ([catch (error: any)]).  The properties of an object are data: an
    object that defines an [includes] of its own is outside this model.
    Numbers are integer valued. *)
Inductive JsValue : Type :=
| JsUndefined
| JsNull
| JsBoolean (b : bool)
| JsNumber (n : Z)
| JsString (s : string)
| JsArray (items : list JsValue)
| JsObject (props : list (string * JsValue)).

(** The outcome of evaluating an expression: a value, or a [TypeError]
    raised by the evaluation itself. *)
Inductive Completion (A : Type) : Type :=
| Normal (a : A)
| ThrowTypeError.
Arguments Normal {A} a.
Arguments ThrowTypeError {A}.

(** [o[k]] on a plain object: the first property named [k], else
    [undefined]. *)
Fixpoint getOwn (k : string) (props : list (string * JsValue)) : JsValue :=
  match props with
  | [] => JsUndefined
  | (k', v) :: rest => if String.eqb k k' then v else getOwn k rest
  end.

(** [error.message].  Reading a property of [undefined] or [null] throws;
    a primitive and an array have no [message] property. *)
Definition getMessage (error : JsValue) : Completion JsValue :=
  match error with
  | JsUndefined | JsNull => ThrowTypeError
  | JsObject props => Normal (getOwn "message" props)
  | JsBoolean _ | JsNumber _ | JsString _ | JsArray _ => Normal JsUndefined
  end.

(** [String.prototype.includes]: does [search] occur in [s]? *)
Fixpoint includes (search s : string) : bool :=
  if String.prefix search s then true
  else match s with
       | EmptyString => false
       | String _ rest => includes search rest
       end.

(** Is the value the string [search]?  This is the comparison that
    [Array.prototype.includes] makes with each element when it looks for a
    string. *)
Definition isString (search : string) (v : JsValue) : bool :=
  match v with
  | JsString s => String.eqb s search
  | _ => false
  end.

(** [m.includes(search)] for a value [m].  A string has
    [String.prototype.includes] and an array [Array.prototype.includes];
    on [undefined] and [null] the property read throws, on the other
    values [m.includes] is not a function and the call throws. *)
Definition callIncludes (m : JsValue) (search : string) : Completion bool :=
  match m with
  | JsString s => Normal (includes search s)
  | JsArray items => Normal (existsb (isString search) items)
  | JsUndefined | JsNull | JsBoolean _ | JsNumber _ | JsObject _ =>
      ThrowTypeError
  end.

(** [error.message.includes(search)]. *)
Definition messageIncludes (error : JsValue) (search : string)
  : Completion bool :=
  match getMessage error with
  | Normal m => callIncludes m search
  | ThrowTypeError => ThrowTypeError
  end.

(** [new Error(msg)], seen as a value: an object whose [message] is [msg]. *)
Definition newError (msg : string) : JsValue :=
  JsObject [("message", JsString msg)].

End Js.
Import Js.

(* ===================================================================== *)
(** ** Schemas *)
(* ===================================================================== *)

(** [z.record(z.any())]: column name to cell. *)
Definition SurveyRecord : Type := list (string * JsValue).

(** [DetectKpisInputSchema]. *)
Record DetectKpisInput : Type := {
  surveyData : list SurveyRecord;
  language : option string
}.

(** [DetectKpisOutputSchema]. *)
Record DetectKpisOutput : Type := {
  kpis : list string;
  explanation : string
}.

(* ===================================================================== *)
(** ** The prompt template *)
(* ===================================================================== *)

Module Template.

(** The pieces a template is made of: literal text, [{{var}}],
    [{{{var}}}] and [{{#if var}} ... {{/if}}]. *)
Inductive Node : Type :=
| Text (s : string)
| Mustache (var : string)
| TripleStash (var : string)
| IfBlock (var : string) (body : list Node).

(** What a template variable can be bound to for [DetectKpisInput]. *)
Inductive CtxValue : Type :=
| CtxUndefined
| CtxString (s : string)
| CtxRecords (rows : list SurveyRecord).

Definition context (input : DetectKpisInput) (var : string) : CtxValue :=
  if String.eqb var "surveyData" then CtxRecords (surveyData input)
  else if String.eqb var "language" then
         match language input with
         | Some l => CtxString l
         | None => CtxUndefined
         end
  else CtxUndefined.

(** The test of [{{#if}}]: absent values, the empty string and the empty
    array do not pass. *)
Definition truthy (v : CtxValue) : bool :=
  match v with
  | CtxUndefined => false
  | CtxString EmptyString => false
  | CtxString (String _ _) => true
  | CtxRecords [] => false
  | CtxRecords (_ :: _) => true
  end.

Section Engine.

(** The text the template engine produces for the array of records under
    [{{{surveyData}}}].  The engine is a dependency of the repository, so
    the flow is stated for any such text; what the engine does produce is
    [recordsToString] below. *)
Variable serialize : list SurveyRecord -> string.

(** Modelled from the spec: the template engine's interpolation, which is
    not part of the repository.  A string is inserted as it is ("used
    verbatim in the prompt text"), an absent value inserts nothing and the
    records are inserted in their serialized form. *)
Definition interpolate (v : CtxValue) : string :=
  match v with
  | CtxUndefined => EmptyString
  | CtxString s => s
  | CtxRecords rows => serialize rows
  end.

Fixpoint renderNode (ctx : string -> CtxValue) (n : Node) : string :=
  match n with
  | Text s => s
  | Mustache var => interpolate (ctx var)
  | TripleStash var => interpolate (ctx var)
  | IfBlock var body =>
      if truthy (ctx var)
      then (fix renderAll (l : list Node) : string :=
              match l with
              | [] => EmptyString
              | x :: rest => renderNode ctx x ++ renderAll rest
              end) body
      else EmptyString
  end.

Definition render (ctx : string -> CtxValue) (t : list Node) : string :=
  fold_right (fun n acc => renderNode ctx n ++ acc) EmptyString t.

End Engine.

(** The text before the conditional block. *)
Definition preamble : string :=
"You are an expert data analyst specializing in survey data.

  Analyze the provided survey data to identify the key performance indicators (KPIs).
  A KPI is a numerical data point which has the highest correlation to all the other numerical data points.
  Consider only the numerical survey responses when identifying KPIs.
  Return a list of the names of the columns which have a numerical datatype, and are KPIs.
  Also explain the reasoning behind why these data points are KPIs.

".

(** The body of [{{#if language}}]. *)
Definition languageBlock : list Node :=
  [ Text "  Note: The survey data is in ";
    Mustache "language";
    Text " language. Please consider language-specific nuances when identifying KPIs. Column names and values may be in ";
    Mustache "language";
    Text ".
" ].

(** The [prompt] field of [detectKpisPrompt], tag by tag.  The two lines
    that hold nothing but [{{#if language}}] and [{{/if}}] are not text of
    the template: the engine drops a line on which a block tag stands
    alone, with its indentation and its line break.  All other text is as
    written. *)
Definition promptTemplate : list Node :=
  [ Text preamble;
    IfBlock "language" languageBlock;
    Text "
  Survey Data: ";
    TripleStash "surveyData";
    Text "
  " ].

(** The prompt text sent for an input. *)
Definition renderPrompt (serialize : list SurveyRecord -> string)
  (input : DetectKpisInput) : string :=
  render serialize (context input) promptTemplate.

(** What the engine inserts for [{{{surveyData}}}]: the array converted to
    a string as JavaScript does it, the elements joined by commas, where
    each record, a plain object, comes out as [[object Object]]. *)
Definition recordsToString (rows : list SurveyRecord) : string :=
  String.concat "," (map (fun _ : SurveyRecord => "[object Object]") rows).

(** The prompt as the engine renders it. *)
Definition renderedPrompt (input : DetectKpisInput) : string :=
  renderPrompt recordsToString input.

End Template.

(* ===================================================================== *)
(** ** The flow *)
(* ===================================================================== *)

Module Flow.

Import Template.

(** What one call of [detectKpisPrompt(input)] comes back with: the
    promise resolves with a response whose [output] may be missing, or it
    rejects with some value. *)
Inductive Outcome : Type :=
| Success (output : option DetectKpisOutput)
| Failure (error : JsValue).

(** The model behind the prompt, as seen from one invocation of the flow:
    the outcome of the call number [n] (counted from 0) on a prompt text. *)
Definition Model : Type := nat -> string -> Outcome.

(** What the flow does to the outside, in order. *)
Inductive Event : Type :=
| Generate (prompt : string)
| Warn (line : string)
| Sleep (ms : N).

(** The state the flow runs in.  [request] is the object the caller passed
    to [detectKpis], which the flow holds by reference. *)
Record World : Type := {
  request : DetectKpisInput;
  callsMade : nat;
  trace : list Event
}.

Definition emit (e : Event) (w : World) : World :=
  {| request := request w;
     callsMade := callsMade w;
     trace := trace w ++ [e] |}.

(** What the flow throws: the value it caught, thrown again
    ([throw error]); an error it makes itself ([throw new Error(...)]); or
    the [TypeError] that the test in the catch block runs into. *)
Inductive Exn : Type :=
| Caught (error : JsValue)
| Raised (error : JsValue)
| TypeError.

(** How the promise returned by the flow settles.  [output!] asserts a
    type and checks nothing, so a missing output is a possible result. *)
Inductive FlowResult : Type :=
| Resolved (output : option DetectKpisOutput)
| Rejected (e : Exn).

(** The local variables of the flow body. *)
Record RetryState : Type := {
  retries : N;
  delay : N
}.

Definition maxRetries : N := 3.
Definition initialState : RetryState := {| retries := 0; delay := 2000 |}.
Definition rateLimitMarker : string := "429 Too Many Requests".
Definition exhaustedMessage : string :=
  "Failed to detect KPIs after multiple retries due to rate limiting.".

(** The text of [${delay / 1000}] for a delay in milliseconds: the
    quotient, then the thousandths without their trailing zeros. *)
Definition digit (d : N) : string := NilZero.string_of_uint (N.to_uint d).

Definition thousandths (r : N) : string :=
  let d1 := (r / 100)%N in
  let d2 := ((r / 10) mod 10)%N in
  let d3 := (r mod 10)%N in
  if (d3 =? 0)%N
  then if (d2 =? 0)%N then digit d1 else digit d1 ++ digit d2
  else digit d1 ++ digit d2 ++ digit d3.

Definition secondsText (ms : N) : string :=
  if (ms mod 1000 =? 0)%N then digit (ms / 1000)
  else digit (ms / 1000) ++ "." ++ thousandths (ms mod 1000).

Definition warnLine (ms : N) : string :=
  "Rate limit exceeded. Retrying in " ++ secondsText ms ++ " seconds...".

(** A value together with the equation that names it, so that a branch of
    the loop keeps the test it was taken under. *)
Definition inspect {A : Type} (a : A) : {b : A | a = b} := exist _ a eq_refl.

Section WithEngine.

Variable serialize : list SurveyRecord -> string.
Variable llm : Model.

(** [await detectKpisPrompt(input)]. *)
Definition detectKpisPrompt (w : World) : Outcome * World :=
  let prompt := renderPrompt serialize (request w) in
  (llm (callsMade w) prompt,
   {| request := request w;
      callsMade := S (callsMade w);
      trace := trace w ++ [Generate prompt] |}).

(** Where the [catch] block leaves the loop body. *)
Inductive Handled : Type :=
| Retry (st : RetryState) (w : World)
| Throw (e : Exn) (w : World).

(** The [catch (error: any)] block. *)
Definition catchHandler (st : RetryState) (error : JsValue) (w : World)
  : Handled :=
  match messageIncludes error rateLimitMarker with
  | Normal true =>
      let w1 := emit (Warn (warnLine (delay st))) w in
      let w2 := emit (Sleep (delay st)) w1 in
      Retry {| retries := retries st + 1; delay := delay st * 2 |} w2
  | Normal false => Throw (Caught error) w
  | ThrowTypeError => Throw TypeError w
  end.

(** How many more times the loop test can pass: the measure under which
    the loop ends. *)
Definition attemptsLeft (st : RetryState) : nat :=
  N.to_nat (maxRetries - retries st).
Arguments attemptsLeft : simpl never.

(** The [while (retries < maxRetries)] loop and the [throw] after it. *)
Equations? retryLoop (st : RetryState) (w : World) : FlowResult * World
  by wf (attemptsLeft st) lt :=
  retryLoop st w with inspect (retries st <? maxRetries)%N := {
    | exist _ true below with detectKpisPrompt w := {
        | (Success output, w1) := (Resolved output, w1);
        | (Failure error, w1) with inspect (catchHandler st error w1) := {
            | exist _ (Retry st2 w2) handled := retryLoop st2 w2;
            | exist _ (Throw e w2) _ := (Rejected e, w2) } };
    | exist _ false _ := (Rejected (Raised (newError exhaustedMessage)), w) }.
Proof.
  unfold catchHandler in handled.
  destruct (messageIncludes error rateLimitMarker) as [[|]|];
    try discriminate.
  injection handled as <- _. cbn [retries].
  apply N.ltb_lt in below.
  unfold attemptsLeft, maxRetries in *. cbn [retries]. lia.
Qed.

(** The body given to [ai.defineFlow], run in a fresh world.  The checks
    of [inputSchema] and [outputSchema] that the framework puts around the
    body are the framework's and are not part of this model. *)
Definition detectKpisFlow (input : DetectKpisInput) : FlowResult * World :=
  retryLoop initialState {| request := input; callsMade := 0; trace := [] |}.

(** [detectKpis]. *)
Definition detectKpis (input : DetectKpisInput) : FlowResult * World :=
  detectKpisFlow input.

End WithEngine.

(** *** Vocabulary for the statements *)

(** [search] occurs somewhere in [s]. *)
Definition Occurs (search s : string) : Prop :=
  exists before after, s = before ++ search ++ after.

(** The error carries a message that is a string. *)
Definition hasStringMessage (error : JsValue) : Prop :=
  exists s, getMessage error = Normal (JsString s).

(** The message of the error is a string or an array, the two kinds of
    value that have an [includes]. *)
Definition hasIncludes (error : JsValue) : Prop :=
  exists m, getMessage error = Normal m /\
            ((exists s, m = JsString s) \/ (exists items, m = JsArray items)).

(** A rate-limit error, as the catch block sees it: its message is a
    string in which ['429 Too Many Requests'] occurs, or an array that has
    this string as an element. *)
Definition rateLimited (error : JsValue) : Prop :=
  exists m, getMessage error = Normal m /\
            ((exists s, m = JsString s /\ Occurs rateLimitMarker s) \/
             (exists items, m = JsArray items /\
                            In (JsString rateLimitMarker) items)).

(** The message of the error is one on which [includes] cannot be
    called. *)
Definition noIncludes (m : JsValue) : Prop :=
  match m with
  | JsString _ | JsArray _ => False
  | JsUndefined | JsNull | JsBoolean _ | JsNumber _ | JsObject _ => True
  end.

(** The error cannot be classified: it is not an object, or it is an
    object whose [message] is absent, [null], a boolean, a number or an
    object. *)
Definition unclassifiable (error : JsValue) : Prop :=
  match error with
  | JsObject props => noIncludes (getOwn "message" props)
  | _ => True
  end.

(** The first [k] calls of the model on [prompt] all fail with a
    rate-limit error. *)
Definition rateLimitedRun (llm : Model) (prompt : string) (k : nat) : Prop :=
  forall i, (i < k)%nat ->
    exists error, llm i prompt = Failure error /\ rateLimited error.

(** One pass through the loop that ends in the rate-limit branch: the
    call, the warning, the sleep. *)
Definition round (prompt : string) (d : N) : list Event :=
  [Generate prompt; Warn (warnLine d); Sleep d].

(** [k] such passes in a row, the delay doubling from [d]. *)
Fixpoint rounds (prompt : string) (d : N) (k : nat) : list Event :=
  match k with
  | O => []
  | S k' => (round prompt d ++ rounds prompt (d * 2) k')%list
  end.

(** The doubling rule: the first [k] delays, from 2000 ms. *)
Definition backoff (k : nat) : list N :=
  map (fun i => (2000 * 2 ^ N.of_nat i)%N) (seq 0 k).

(** The sleeps, the warning lines and the prompts of a trace, in order. *)
Definition sleeps (t : list Event) : list N :=
  flat_map (fun e => match e with Sleep ms => [ms] | _ => [] end) t.

Definition warnings (t : list Event) : list string :=
  flat_map (fun e => match e with Warn line => [line] | _ => [] end) t.

Definition prompts (t : list Event) : list string :=
  flat_map (fun e => match e with Generate p => [p] | _ => [] end) t.

(** The time spent in backoff along a trace, in milliseconds. *)
Definition totalSleep (t : list Event) : N :=
  fold_right N.add 0%N (sleeps t).

(** The column names of the records of a request. *)
Definition columns (input : DetectKpisInput) : list string :=
  flat_map (fun row : SurveyRecord => map fst row) (surveyData input).

End Flow.
Import Template Flow.

(* ===================================================================== *)
(** ** Sample data *)
(* ===================================================================== *)

Module Samples.

(** JavaScript's own conversion of an array of plain objects to a string,
    which is the engine's [recordsToString]. *)
Definition objectToString (rows : list SurveyRecord) : string :=
  String.concat "," (map (fun _ => "[object Object]") rows).

Definition records : list SurveyRecord :=
  [ [("age", JsNumber 30); ("satisfaction", JsString "high")];
    [("age", JsNumber 45); ("satisfaction", JsString "low")] ].

Definition plainRequest : DetectKpisInput :=
  {| surveyData := records; language := None |}.

Definition frenchRequest : DetectKpisInput :=
  {| surveyData := records; language := Some "fr" |}.

Definition ageKpi : DetectKpisOutput :=
  {| kpis := ["age"]; explanation := "age correlates with the rest" |}.

(** An answer that names a column the records do not have. *)
Definition strayKpi : DetectKpisOutput :=
  {| kpis := ["revenue"]; explanation := "revenue drives everything" |}.

Definition tooManyRequests : JsValue :=
  newError "Error fetching from the model: [429 Too Many Requests] Resource has been exhausted".

Definition serverError : JsValue :=
  newError "Error fetching from the model: [500 Internal Server Error]".

(** A rejection value without a [message]. *)
Definition bareStatus : JsValue :=
  JsObject [("code", JsNumber 500)].


Definition listedFailure : JsValue :=
  JsObject [("message", JsArray [JsString "x"])].

(** Other records, as many as [records]. *)
Definition otherRecords : list SurveyRecord :=
  [ [("score", JsNumber 7)]; [("score", JsNumber 9); ("city", JsNull)] ].

Definition answersAtOnce (output : option DetectKpisOutput) : Model :=
  fun _ _ => Success output.

(** Rate limited on the first [k] calls, then [after]. *)
Definition rateLimitedFor (k : nat) (after : Outcome) : Model :=
  fun n _ => if (n <? k)%nat then Failure tooManyRequests else after.

(** Rate limited once, then two answers, then a server that is down. *)
Definition answersThenBreaks : Model :=
  fun n _ =>
    if (n <? 1)%nat then Failure tooManyRequests
    else if (n <? 3)%nat then Success (Some ageKpi)
    else Failure serverError.

End Samples.

(* ===================================================================== *)
(** ** Properties *)
(* ===================================================================== *)

(** *** Strings *)

Lemma prefix_app (a b : string) : String.prefix a (a ++ b) = true.
Proof.
  induction a as [| c a IH]; simpl.
  - now destruct b.
  - destruct (ascii_dec c c) as [_ | ne]; [exact IH | now elim ne].
Qed.

Lemma prefix_split (a s : string) :
  String.prefix a s = true -> exists b, s = a ++ b.
Proof.
  revert s. induction a as [| c a IH]; intros s.
  - intros _. now exists s.
  - destruct s as [| c' s]; simpl; [discriminate |].
    destruct (ascii_dec c c') as [<- | _]; [| discriminate].
    intros pre. destruct (IH s pre) as [b ->]. now exists b.
Qed.

Lemma includes_unfold (search s : string) :
  includes search s =
  if String.prefix search s then true
  else match s with
       | EmptyString => false
       | String _ rest => includes search rest
       end.
Proof. destruct s; reflexivity. Qed.

(** [includes] decides occurrence. *)
Lemma includes_spec (search s : string) :
  includes search s = true <-> Occurs search s.
Proof.
  split.
  - induction s as [| c s IH]; rewrite includes_unfold; intros inc.
    + destruct (String.prefix search EmptyString) eqn:pre; [| discriminate].
      destruct (prefix_split _ _ pre) as [b eq].
      now exists EmptyString, b.
    + destruct (String.prefix search (String c s)) eqn:pre.
      * destruct (prefix_split _ _ pre) as [b eq].
        now exists EmptyString, b.
      * destruct (IH inc) as (before & after & ->).
        now exists (String c before), after.
  - intros (before & after & ->).
    induction before as [| c before IH]; rewrite includes_unfold.
    + change (EmptyString ++ search ++ after) with (search ++ after).
      now rewrite prefix_app.
    + change (String c before ++ search ++ after)
        with (String c (before ++ search ++ after)).
      destruct (String.prefix search (String c (before ++ search ++ after)));
        [reflexivity | exact IH].
Qed.

(** *** The classification expression *)

Lemma isString_true (search : string) (v : JsValue) :
  isString search v = true <-> v = JsString search.
Proof.
  destruct v; simpl; try (split; [discriminate | discriminate]).
  split.
  - intros same. apply String.eqb_eq in same. now subst.
  - intros [= ->]. apply String.eqb_refl.
Qed.

(** [Array.prototype.includes], looking for a string, decides
    membership. *)
Lemma existsb_isString (search : string) (items : list JsValue) :
  existsb (isString search) items = true <-> In (JsString search) items.
Proof.
  rewrite existsb_exists. split.
  - intros (v & here & same). apply isString_true in same. now subst.
  - intros here. exists (JsString search). split; [exact here |].
    now apply isString_true.
Qed.

Lemma messageIncludes_true (error : JsValue) :
  messageIncludes error rateLimitMarker = Normal true <-> rateLimited error.
Proof.
  unfold messageIncludes, rateLimited. split.
  - destruct (getMessage error) as [m |]; [| discriminate].
    destruct m; simpl; try discriminate; intros [= inc].
    + exists (JsString s). split; [reflexivity |]. left.
      exists s. split; [reflexivity |]. now apply includes_spec.
    + exists (JsArray items). split; [reflexivity |]. right.
      exists items. split; [reflexivity |]. now apply existsb_isString.
  - intros (m & -> & [(s & -> & occ) | (items & -> & here)]); simpl; f_equal.
    + now apply includes_spec.
    + now apply existsb_isString.
Qed.

Lemma messageIncludes_throws (error : JsValue) :
  messageIncludes error rateLimitMarker = ThrowTypeError <->
  ~ hasIncludes error.
Proof.
  unfold messageIncludes, hasIncludes. split.
  - intros cls (m & msg & [(s & ->) | (items & ->)]);
      rewrite msg in cls; discriminate.
  - intros none. destruct (getMessage error) as [m |]; [| reflexivity].
    destruct m; try reflexivity; elim none.
    + exists (JsString s). split; [reflexivity |]. left. now exists s.
    + exists (JsArray items). split; [reflexivity |]. right. now exists items.
Qed.

Lemma messageIncludes_false (error : JsValue) :
  messageIncludes error rateLimitMarker = Normal false <->
  hasIncludes error /\ ~ rateLimited error.
Proof.
  split.
  - intros cls. split.
    + destruct (messageIncludes error rateLimitMarker) as [[|] |] eqn:found;
        try discriminate.
      unfold messageIncludes in found. unfold hasIncludes.
      destruct (getMessage error) as [m |]; [| discriminate].
      exists m. split; [reflexivity |].
      destruct m; simpl in found; try discriminate.
      * left. now exists s.
      * right. now exists items.
    + intros rl. apply messageIncludes_true in rl. congruence.
  - intros [has nrl].
    destruct (messageIncludes error rateLimitMarker) as [[|] |] eqn:cls.
    + elim nrl. now apply messageIncludes_true.
    + reflexivity.
    + apply messageIncludes_throws in cls. now elim cls.
Qed.

(** An error that cannot be classified makes the test throw. *)
Lemma unclassifiable_throws (error : JsValue) :
  unclassifiable error <-> ~ hasIncludes error.
Proof.
  unfold unclassifiable, hasIncludes. split.
  - intros bare (m & msg & kind).
    destruct error as [| | b | n | str | arr | props]; simpl in msg;
      try discriminate; injection msg as <-.
    1-4: destruct kind as [[s' eq] | [l' eq]]; discriminate.
    destruct kind as [[s' eq] | [l' eq]]; rewrite eq in bare; exact bare.
  - intros none. destruct error; try exact I.
    simpl in none. destruct (getOwn "message" props); try exact I; elim none.
    + exists (JsString s). split; [reflexivity |]. left. now exists s.
    + exists (JsArray items). split; [reflexivity |]. right. now exists items.
Qed.

(** *** Traces *)

Lemma doubling_shift (d : N) (k : nat) :
  map (fun i => (d * 2 * 2 ^ N.of_nat i)%N) (seq 0 k) =
  map (fun i => (d * 2 ^ N.of_nat i)%N) (seq 1 k).
Proof.
  rewrite <- seq_shift, map_map. apply map_ext. intros i.
  rewrite Nat2N.inj_succ, N.pow_succ_r'. lia.
Qed.

Lemma sleeps_rounds (p : string) (k : nat) :
  forall d, sleeps (rounds p d k) =
            map (fun i => (d * 2 ^ N.of_nat i)%N) (seq 0 k).
Proof.
  induction k as [| k IH]; intros d; [reflexivity |].
  cbn [rounds round sleeps flat_map app]. fold (sleeps (rounds p (d * 2) k)).
  rewrite IH, doubling_shift. cbn [seq map N.of_nat].
  now rewrite N.pow_0_r, N.mul_1_r.
Qed.

Lemma warnings_rounds (p : string) (k : nat) :
  forall d, warnings (rounds p d k) =
            map (fun i => warnLine (d * 2 ^ N.of_nat i)%N) (seq 0 k).
Proof.
  induction k as [| k IH]; intros d; [reflexivity |].
  cbn [rounds round warnings flat_map app].
  fold (warnings (rounds p (d * 2) k)).
  rewrite IH. cbn [seq map N.of_nat]. rewrite N.pow_0_r, N.mul_1_r.
  f_equal.
  change (fun i => warnLine (d * 2 * 2 ^ N.of_nat i)%N)
    with (fun i => warnLine ((fun j => (d * 2 * 2 ^ N.of_nat j)%N) i)).
  rewrite <- (map_map (fun j => (d * 2 * 2 ^ N.of_nat j)%N) warnLine).
  rewrite doubling_shift. now rewrite map_map.
Qed.

Lemma prompts_rounds (p : string) (k : nat) :
  forall d, prompts (rounds p d k) = repeat p k.
Proof.
  induction k as [| k IH]; intros d; [reflexivity |].
  cbn [rounds round prompts flat_map app repeat].
  fold (prompts (rounds p (d * 2) k)). now rewrite IH.
Qed.

Lemma sleeps_app (t u : list Event) :
  sleeps (t ++ u) = (sleeps t ++ sleeps u)%list.
Proof. apply flat_map_app. Qed.

Lemma warnings_app (t u : list Event) :
  warnings (t ++ u) = (warnings t ++ warnings u)%list.
Proof. apply flat_map_app. Qed.

Lemma prompts_app (t u : list Event) :
  prompts (t ++ u) = (prompts t ++ prompts u)%list.
Proof. apply flat_map_app. Qed.

(** The delays of the doubling rule, spelled out. *)
Lemma backoff_values (k : nat) :
  (k <= 3)%nat -> backoff k = firstn k [2000; 4000; 8000]%N.
Proof.
  intros le. destruct k as [| [| [| [| k]]]]; try reflexivity. lia.
Qed.

(** *** The loop *)

Section Loop.

Variable serialize : list SurveyRecord -> string.
Variable llm : Model.

(** The loop, one iteration unfolded. *)
Lemma retryLoop_eq (st : RetryState) (w : World) :
  retryLoop serialize llm st w =
  if (retries st <? maxRetries)%N then
    match detectKpisPrompt serialize llm w with
    | (Success output, w1) => (Resolved output, w1)
    | (Failure error, w1) =>
        match catchHandler st error w1 with
        | Retry st2 w2 => retryLoop serialize llm st2 w2
        | Throw e w2 => (Rejected e, w2)
        end
    end
  else (Rejected (Raised (newError exhaustedMessage)), w).
Proof.
  rewrite retryLoop_equation_1.
  destruct (inspect (retries st <? maxRetries)%N) as [[|] test].
  - rewrite retryLoop_clause_1_equation_1.
    transitivity
      (match detectKpisPrompt serialize llm w with
       | (Success output, w1) => (Resolved output, w1)
       | (Failure error, w1) =>
           match catchHandler st error w1 with
           | Retry st2 w2 => retryLoop serialize llm st2 w2
           | Throw e w2 => (Rejected e, w2)
           end
       end); [| now rewrite test].
    destruct (detectKpisPrompt serialize llm w) as [[output | error] w1].
    + now rewrite retryLoop_clause_1_clause_1_equation_1.
    + rewrite retryLoop_clause_1_clause_1_equation_2.
      destruct (inspect (catchHandler st error w1))
        as [[st2 w2 | e w2] handled].
      * rewrite retryLoop_clause_1_clause_1_clause_2_equation_1.
        now rewrite handled.
      * rewrite retryLoop_clause_1_clause_1_clause_2_equation_2.
        now rewrite handled.
  - rewrite retryLoop_clause_1_equation_2. now rewrite test.
Qed.

(** The world after the call of an attempt. *)
Lemma detectKpisPrompt_eq (req : DetectKpisInput) (c : nat)
  (t : list Event) :
  detectKpisPrompt serialize llm
    {| request := req; callsMade := c; trace := t |} =
  (llm c (renderPrompt serialize req),
   {| request := req; callsMade := S c;
      trace := t ++ [Generate (renderPrompt serialize req)] |}).
Proof. reflexivity. Qed.

(** The loop test fails: the terminal error, and nothing else happens. *)
Lemma retryLoop_exhausted (st : RetryState) (w : World) :
  (maxRetries <= retries st)%N ->
  retryLoop serialize llm st w =
  (Rejected (Raised (newError exhaustedMessage)), w).
Proof.
  intros over. rewrite retryLoop_eq.
  destruct (N.ltb_spec (retries st) maxRetries); [lia | reflexivity].
Qed.

(** An attempt that succeeds ends the loop with the output of the call. *)
Lemma retryLoop_success (st : RetryState) (req : DetectKpisInput)
  (c : nat) (t : list Event) (output : option DetectKpisOutput) :
  (retries st < maxRetries)%N ->
  llm c (renderPrompt serialize req) = Success output ->
  retryLoop serialize llm st
    {| request := req; callsMade := c; trace := t |} =
  (Resolved output,
   {| request := req; callsMade := S c;
      trace := t ++ [Generate (renderPrompt serialize req)] |}).
Proof.
  intros below ok. rewrite retryLoop_eq, detectKpisPrompt_eq, ok.
  destruct (N.ltb_spec (retries st) maxRetries); [reflexivity | lia].
Qed.

(** An attempt that fails, with whatever the handler decides. *)
Lemma retryLoop_failure (st : RetryState) (req : DetectKpisInput)
  (c : nat) (t : list Event) (error : JsValue) :
  (retries st < maxRetries)%N ->
  llm c (renderPrompt serialize req) = Failure error ->
  retryLoop serialize llm st
    {| request := req; callsMade := c; trace := t |} =
  match catchHandler st error
          {| request := req; callsMade := S c;
             trace := t ++ [Generate (renderPrompt serialize req)] |} with
  | Retry st2 w2 => retryLoop serialize llm st2 w2
  | Throw e w2 => (Rejected e, w2)
  end.
Proof.
  intros below ko. rewrite retryLoop_eq, detectKpisPrompt_eq, ko.
  destruct (N.ltb_spec (retries st) maxRetries); [reflexivity | lia].
Qed.

(** The handler on a rate-limit error. *)
Lemma catchHandler_rateLimited (st : RetryState) (error : JsValue)
  (w : World) :
  rateLimited error ->
  catchHandler st error w =
  Retry {| retries := retries st + 1; delay := delay st * 2 |}
        {| request := request w; callsMade := callsMade w;
           trace := trace w ++ [Warn (warnLine (delay st)); Sleep (delay st)]
        |}.
Proof.
  intros rl. apply messageIncludes_true in rl.
  unfold catchHandler. rewrite rl. unfold emit. cbn.
  now rewrite <- app_assoc.
Qed.

(** [k] rate-limit failures in a row take the loop through [k] rounds. *)
Lemma retryLoop_rounds (k : nat) :
  forall (r d : N) (req : DetectKpisInput) (c : nat) (t : list Event),
    (r + N.of_nat k <= maxRetries)%N ->
    (forall i, (i < k)%nat ->
       exists error,
         llm (c + i) (renderPrompt serialize req) = Failure error /\
         rateLimited error) ->
    retryLoop serialize llm {| retries := r; delay := d |}
      {| request := req; callsMade := c; trace := t |} =
    retryLoop serialize llm
      {| retries := r + N.of_nat k; delay := d * 2 ^ N.of_nat k |}
      {| request := req; callsMade := c + k;
         trace := t ++ rounds (renderPrompt serialize req) d k |}.
Proof.
  induction k as [| k IH]; intros r d req c t bound fails.
  - cbn [rounds N.of_nat]. rewrite app_nil_r, Nat.add_0_r, N.add_0_r.
    now rewrite N.pow_0_r, N.mul_1_r.
  - destruct (fails 0%nat) as (error & ko & rl); [lia |].
    rewrite Nat.add_0_r in ko.
    rewrite (retryLoop_failure _ _ _ _ error); cbn [retries]; [| lia | exact ko].
    rewrite (catchHandler_rateLimited _ _ _ rl). cbn [retries delay request callsMade trace].
    rewrite IH.
    + f_equal.
      * f_equal; [lia |].
        rewrite Nat2N.inj_succ, N.pow_succ_r'. lia.
      * f_equal; [lia |].
        cbn [rounds round]. now rewrite <- !app_assoc.
    + lia.
    + intros i lt. destruct (fails (S i)) as (e & ko' & rl'); [lia |].
      exists e. split; [| exact rl'].
      now replace (S c + i)%nat with (c + S i)%nat by lia.
Qed.

(** The flow after [k] rate-limit failures: about to test the loop
    condition again, [k] rounds behind it. *)
Lemma detectKpis_rounds (input : DetectKpisInput) (k : nat) :
  (k <= 3)%nat ->
  rateLimitedRun llm (renderPrompt serialize input) k ->
  detectKpis serialize llm input =
  retryLoop serialize llm
    {| retries := N.of_nat k; delay := 2000 * 2 ^ N.of_nat k |}
    {| request := input; callsMade := k;
       trace := rounds (renderPrompt serialize input) 2000 k |}.
Proof.
  intros le run. unfold detectKpis, detectKpisFlow, initialState.
  rewrite (retryLoop_rounds k); [reflexivity | unfold maxRetries; lia |].
  intros i lt. exact (run i lt).
Qed.

(** An attempt that fails with an error of another kind: the error is
    thrown again as it was caught. *)
Lemma detectKpis_propagates_other_error (input : DetectKpisInput)
  (k : nat) (error : JsValue) :
  (k < 3)%nat ->
  rateLimitedRun llm (renderPrompt serialize input) k ->
  llm k (renderPrompt serialize input) = Failure error ->
  hasIncludes error ->
  ~ rateLimited error ->
  detectKpis serialize llm input =
  (Rejected (Caught error),
   {| request := input; callsMade := S k;
      trace := rounds (renderPrompt serialize input) 2000 k ++
               [Generate (renderPrompt serialize input)] |}).
Proof.
  intros lt run ko msg other.
  rewrite (detectKpis_rounds input k); [| lia | exact run].
  rewrite (retryLoop_failure _ _ _ _ error);
    [| cbn [retries]; unfold maxRetries; lia | exact ko].
  unfold catchHandler.
  now rewrite (proj2 (messageIncludes_false error) (conj msg other)).
Qed.

(** An attempt that succeeds, after [k] rate-limit failures. *)
Lemma detectKpis_success_after (input : DetectKpisInput) (k : nat)
  (output : option DetectKpisOutput) :
  (k < 3)%nat ->
  rateLimitedRun llm (renderPrompt serialize input) k ->
  llm k (renderPrompt serialize input) = Success output ->
  detectKpis serialize llm input =
  (Resolved output,
   {| request := input; callsMade := S k;
      trace := rounds (renderPrompt serialize input) 2000 k ++
               [Generate (renderPrompt serialize input)] |}).
Proof.
  intros lt run ok.
  rewrite (detectKpis_rounds input k); [| lia | exact run].
  apply retryLoop_success; [cbn [retries]; unfold maxRetries; lia | exact ok].
Qed.

(** Three rate-limit failures: the loop test fails after the third round. *)
Lemma detectKpis_three_rounds (input : DetectKpisInput) :
  rateLimitedRun llm (renderPrompt serialize input) 3 ->
  detectKpis serialize llm input =
  (Rejected (Raised (newError exhaustedMessage)),
   {| request := input; callsMade := 3;
      trace := rounds (renderPrompt serialize input) 2000 3 |}).
Proof.
  intros run. rewrite (detectKpis_rounds input 3); [| lia | exact run].
  apply retryLoop_exhausted. cbn [retries]. unfold maxRetries. lia.
Qed.

(** What the loop leaves behind, from any state: the request as it was,
    and a trace that grows by some rounds and at most one more call. *)
Lemma retryLoop_frame (m : nat) :
  forall (st : RetryState) (w : World),
    attemptsLeft st = m ->
    exists (n : nat) (tail : list Event),
      (n <= m)%nat /\
      (tail = [] \/ tail = [Generate (renderPrompt serialize (request w))]) /\
      snd (retryLoop serialize llm st w) =
      {| request := request w;
         callsMade := callsMade w + n + length tail;
         trace := trace w ++
                  rounds (renderPrompt serialize (request w)) (delay st) n ++
                  tail |}.
Proof.
  induction m as [| m IH]; intros st [req c t] left;
    unfold attemptsLeft, maxRetries in left; cbn [request callsMade trace].
  - exists 0%nat, []. split; [lia |]. split; [now left |].
    rewrite retryLoop_exhausted; [| unfold maxRetries; lia].
    cbn. now rewrite !Nat.add_0_r, app_nil_r.
  - assert (below : (retries st < maxRetries)%N) by (unfold maxRetries; lia).
    destruct (llm c (renderPrompt serialize req)) as [output | error] eqn:call.
    + exists 0%nat, [Generate (renderPrompt serialize req)].
      split; [lia |]. split; [now right |].
      rewrite (retryLoop_success _ _ _ _ output below call).
      cbn. f_equal. lia.
    + rewrite (retryLoop_failure _ _ _ _ error below call).
      unfold catchHandler.
      destruct (messageIncludes error rateLimitMarker) as [[|] |].
      * match goal with
        | |- context [retryLoop serialize llm ?st2 ?w2] =>
            destruct (IH st2 w2) as (n & tail & le & shape & after)
        end.
        { unfold attemptsLeft, maxRetries. cbn [retries]. lia. }
        exists (S n), tail. split; [lia |]. split; [exact shape |].
        rewrite after. cbn. f_equal; [lia |].
        now rewrite <- !app_assoc.
      * exists 0%nat, [Generate (renderPrompt serialize req)].
        split; [lia |]. split; [now right |]. cbn. f_equal. lia.
      * exists 0%nat, [Generate (renderPrompt serialize req)].
        split; [lia |]. split; [now right |]. cbn. f_equal. lia.
Qed.

(** C1. When the first [k < 3] calls fail with a rate-limit error and the
    next one succeeds, [detectKpis] resolves with the output of that call,
    after [k + 1] calls, having slept the first [k] delays of 2000 ms,
    4000 ms, in that order: the doubling rule from 2000 ms. *)
Theorem detectKpis_succeeds_after_backoff (input : DetectKpisInput)
  (k : nat) (output : option DetectKpisOutput) :
  (k < 3)%nat ->
  rateLimitedRun llm (renderPrompt serialize input) k ->
  llm k (renderPrompt serialize input) = Success output ->
  fst (detectKpis serialize llm input) = Resolved output /\
  callsMade (snd (detectKpis serialize llm input)) = S k /\
  sleeps (trace (snd (detectKpis serialize llm input))) =
    firstn k [2000; 4000]%N /\
  firstn k [2000; 4000]%N = backoff k.
Proof.
  intros lt run ok.
  rewrite (detectKpis_success_after input k output lt run ok).
  cbn [fst snd callsMade trace].
  assert (short : firstn k [2000; 4000]%N = backoff k).
  { destruct k as [| [| [| k]]]; try reflexivity. lia. }
  repeat split; [| exact short].
  rewrite sleeps_app, sleeps_rounds, short. cbn. apply app_nil_r.
Qed.

(** C2. When the first three calls all fail with a rate-limit error,
    [detectKpis] makes exactly three calls and then rejects with the
    terminal error, whose message says that the retries were used up
    because of rate limiting. *)
Theorem detectKpis_exhausts_after_three_rate_limits
  (input : DetectKpisInput) :
  rateLimitedRun llm (renderPrompt serialize input) 3 ->
  fst (detectKpis serialize llm input) =
    Rejected (Raised (newError exhaustedMessage)) /\
  getMessage (newError exhaustedMessage) =
    Normal (JsString
      "Failed to detect KPIs after multiple retries due to rate limiting.") /\
  callsMade (snd (detectKpis serialize llm input)) = 3%nat /\
  prompts (trace (snd (detectKpis serialize llm input))) =
    repeat (renderPrompt serialize input) 3.
Proof.
  intros run. rewrite (detectKpis_three_rounds input run).
  cbn [fst snd callsMade trace].
  split; [reflexivity |]. split; [reflexivity |]. split; [reflexivity |].
  apply prompts_rounds.
Qed.

(** C4, as the code has it.  When the third call fails with a rate-limit
    error too, the handler still warns and sleeps, for 8000 ms, before the
    loop test fails: the trace ends with that warning and that sleep, and
    the flow has slept 2000, 4000 and 8000 ms when it rejects. *)
Theorem detectKpis_sleeps_after_last_attempt (input : DetectKpisInput) :
  rateLimitedRun llm (renderPrompt serialize input) 3 ->
  fst (detectKpis serialize llm input) =
    Rejected (Raised (newError exhaustedMessage)) /\
  (exists before,
     trace (snd (detectKpis serialize llm input)) =
     (before ++ [Generate (renderPrompt serialize input);
                 Warn "Rate limit exceeded. Retrying in 8 seconds...";
                 Sleep 8000])%list) /\
  sleeps (trace (snd (detectKpis serialize llm input))) =
    [2000; 4000; 8000]%N.
Proof.
  intros run. rewrite (detectKpis_three_rounds input run).
  cbn [fst snd trace]. split; [reflexivity |]. split.
  - exists (rounds (renderPrompt serialize input) 2000 2). reflexivity.
  - now rewrite sleeps_rounds.
Qed.

(** C6. When the first call succeeds, [detectKpis] resolves with the
    output of that call as it is, whatever its [kpis] are, after that one
    call, with no warning and no sleep. *)
Theorem detectKpis_first_attempt_success (input : DetectKpisInput)
  (output : option DetectKpisOutput) :
  llm 0%nat (renderPrompt serialize input) = Success output ->
  fst (detectKpis serialize llm input) = Resolved output /\
  trace (snd (detectKpis serialize llm input)) =
    [Generate (renderPrompt serialize input)] /\
  callsMade (snd (detectKpis serialize llm input)) = 1%nat /\
  sleeps (trace (snd (detectKpis serialize llm input))) = [] /\
  warnings (trace (snd (detectKpis serialize llm input))) = [].
Proof.
  intros ok.
  rewrite (detectKpis_success_after input 0 output); [| lia | | exact ok].
  - repeat split.
  - intros i lt. lia.
Qed.

(** C9, at the runs where the code departs from it.  When the first
    three calls all fail with a rate-limit error, [detectKpis] leaves the
    request as it was and calls the model three times, that is, it retries
    twice; yet it logs three warnings.  The third line announces a retry
    in 8 seconds, and after it and its sleep the trace ends: no call
    follows. *)
Theorem detectKpis_warns_without_retry (input : DetectKpisInput) :
  rateLimitedRun llm (renderPrompt serialize input) 3 ->
  request (snd (detectKpis serialize llm input)) = input /\
  callsMade (snd (detectKpis serialize llm input)) = 3%nat /\
  prompts (trace (snd (detectKpis serialize llm input))) =
    repeat (renderPrompt serialize input) 3 /\
  warnings (trace (snd (detectKpis serialize llm input))) =
    [ "Rate limit exceeded. Retrying in 2 seconds...";
      "Rate limit exceeded. Retrying in 4 seconds...";
      "Rate limit exceeded. Retrying in 8 seconds..." ] /\
  (exists before,
     trace (snd (detectKpis serialize llm input)) =
     (before ++ [Warn "Rate limit exceeded. Retrying in 8 seconds...";
                 Sleep 8000])%list).
Proof.
  intros run. rewrite (detectKpis_three_rounds input run).
  cbn [snd request callsMade trace].
  split; [reflexivity |]. split; [reflexivity |].
  split; [apply prompts_rounds |]. split; [reflexivity |].
  exists (rounds (renderPrompt serialize input) 2000 2 ++
          [Generate (renderPrompt serialize input)])%list.
  cbn [rounds round app]. reflexivity.
Qed.

End Loop.

(** *** How a run is decided *)

Section Outcomes.

Variable serialize : list SurveyRecord -> string.
Variable llm : Model.

(** An attempt that fails with an error on which the test of the catch
    block throws. *)
Lemma detectKpis_type_error_after (input : DetectKpisInput) (k : nat)
  (error : JsValue) :
  (k < 3)%nat ->
  rateLimitedRun llm (renderPrompt serialize input) k ->
  llm k (renderPrompt serialize input) = Failure error ->
  ~ hasIncludes error ->
  detectKpis serialize llm input =
  (Rejected TypeError,
   {| request := input; callsMade := S k;
      trace := rounds (renderPrompt serialize input) 2000 k ++
               [Generate (renderPrompt serialize input)] |}).
Proof.
  intros lt run ko none.
  rewrite (detectKpis_rounds serialize llm input k); [| lia | exact run].
  rewrite (retryLoop_failure serialize llm _ _ _ _ error);
    [| cbn [retries]; unfold maxRetries; lia | exact ko].
  unfold catchHandler.
  now rewrite (proj2 (messageIncludes_throws error) none).
Qed.

Lemma rateLimitedRun_next (p : string) (k : nat) (error : JsValue) :
  rateLimitedRun llm p k ->
  llm k p = Failure error ->
  rateLimited error ->
  rateLimitedRun llm p (S k).
Proof.
  intros run ko rl i lt.
  destruct (Nat.eq_dec i k) as [-> | ne].
  - now exists error.
  - apply run. lia.
Qed.

(** Every run is decided by the first call that does not fail with a
    rate-limit error, or by the third rate-limit failure. *)
Lemma detectKpis_decided (input : DetectKpisInput) :
  exists k,
    rateLimitedRun llm (renderPrompt serialize input) k /\
    ((k = 3%nat /\
      detectKpis serialize llm input =
      (Rejected (Raised (newError exhaustedMessage)),
       {| request := input; callsMade := 3;
          trace := rounds (renderPrompt serialize input) 2000 3 |})) \/
     ((k < 3)%nat /\
      exists r,
        detectKpis serialize llm input =
        (r, {| request := input; callsMade := S k;
               trace := rounds (renderPrompt serialize input) 2000 k ++
                        [Generate (renderPrompt serialize input)] |}) /\
        ((exists output,
            llm k (renderPrompt serialize input) = Success output /\
            r = Resolved output) \/
         (exists error,
            llm k (renderPrompt serialize input) = Failure error /\
            hasIncludes error /\ ~ rateLimited error /\
            r = Rejected (Caught error)) \/
         (exists error,
            llm k (renderPrompt serialize input) = Failure error /\
            ~ hasIncludes error /\
            r = Rejected TypeError)))).
Proof.
  assert (from : forall m k, (k + m = 3)%nat ->
            rateLimitedRun llm (renderPrompt serialize input) k ->
            exists k', rateLimitedRun llm (renderPrompt serialize input) k' /\
              ((k' = 3%nat /\
                detectKpis serialize llm input =
                (Rejected (Raised (newError exhaustedMessage)),
                 {| request := input; callsMade := 3;
                    trace := rounds (renderPrompt serialize input) 2000 3 |}))
               \/
               ((k' < 3)%nat /\
                exists r,
                  detectKpis serialize llm input =
                  (r, {| request := input; callsMade := S k';
                         trace :=
                           rounds (renderPrompt serialize input) 2000 k' ++
                           [Generate (renderPrompt serialize input)] |}) /\
                  ((exists output,
                      llm k' (renderPrompt serialize input) = Success output
                      /\ r = Resolved output) \/
                   (exists error,
                      llm k' (renderPrompt serialize input) = Failure error
                      /\ hasIncludes error /\ ~ rateLimited error /\
                      r = Rejected (Caught error)) \/
                   (exists error,
                      llm k' (renderPrompt serialize input) = Failure error
                      /\ ~ hasIncludes error /\
                      r = Rejected TypeError))))).
  { induction m as [| m IH]; intros k sum run.
    - assert (k = 3)%nat as -> by lia.
      exists 3%nat. split; [exact run |]. left. split; [reflexivity |].
      now apply detectKpis_three_rounds.
    - assert (lt : (k < 3)%nat) by lia.
      destruct (llm k (renderPrompt serialize input))
        as [output | error] eqn:call.
      + exists k. split; [exact run |]. right. split; [exact lt |].
        exists (Resolved output). split.
        * now apply detectKpis_success_after.
        * left. now exists output.
      + destruct (messageIncludes error rateLimitMarker) as [[|] |] eqn:cls.
        * apply (IH (S k)); [lia |].
          apply (rateLimitedRun_next _ _ error run call).
          now apply messageIncludes_true.
        * apply messageIncludes_false in cls. destruct cls as [msg other].
          exists k. split; [exact run |]. right. split; [exact lt |].
          exists (Rejected (Caught error)). split.
          -- now apply detectKpis_propagates_other_error.
          -- right. left. now exists error.
        * apply messageIncludes_throws in cls.
          exists k. split; [exact run |]. right. split; [exact lt |].
          exists (Rejected TypeError). split.
          -- now apply (detectKpis_type_error_after input k error).
          -- right. right. now exists error. }
  apply (from 3%nat 0%nat); [reflexivity |].
  intros i lt. lia.
Qed.

(** X1. Whatever the model does, [detectKpis] calls it at least once and
    at most three times, and every call carries the prompt rendered from
    the request. *)
Theorem detectKpis_calls_bounded (input : DetectKpisInput) :
  (1 <= callsMade (snd (detectKpis serialize llm input)) <= 3)%nat /\
  prompts (trace (snd (detectKpis serialize llm input))) =
    repeat (renderPrompt serialize input)
           (callsMade (snd (detectKpis serialize llm input))).
Proof.
  destruct (detectKpis_decided input)
    as (k & _ & [[-> eq] | (lt & r & eq & _)]);
    rewrite eq; cbn [snd callsMade trace].
  - split; [lia |]. apply prompts_rounds.
  - split; [lia |].
    rewrite prompts_app, prompts_rounds. cbn [prompts flat_map app].
    now rewrite <- repeat_cons.
Qed.

(** X2. [detectKpis] resolves only with what a call returned: when it
    resolves with an output, one of the first three calls succeeded with
    that output and every call before it failed with a rate-limit
    error. *)
Theorem detectKpis_resolved_inv (input : DetectKpisInput)
  (output : option DetectKpisOutput) :
  fst (detectKpis serialize llm input) = Resolved output ->
  exists k,
    (k < 3)%nat /\
    rateLimitedRun llm (renderPrompt serialize input) k /\
    llm k (renderPrompt serialize input) = Success output.
Proof.
  intros resolved.
  destruct (detectKpis_decided input)
    as (k & run & [[_ eq] | (lt & r & eq & shape)]);
    rewrite eq in resolved; cbn [fst] in resolved; [discriminate |].
  exists k. split; [exact lt |]. split; [exact run |].
  destruct shape as [(out & ok & ->) | [(e & _ & _ & _ & ->) | (e & _ & _ & ->)]];
    [| discriminate | discriminate].
  injection resolved as <-. exact ok.
Qed.

(** X3. The terminal error is thrown exactly when the first three calls
    all fail with a rate-limit error. *)
Theorem detectKpis_exhausted_iff (input : DetectKpisInput) :
  fst (detectKpis serialize llm input) =
    Rejected (Raised (newError exhaustedMessage)) <->
  rateLimitedRun llm (renderPrompt serialize input) 3.
Proof.
  split.
  - intros exhausted.
    destruct (detectKpis_decided input)
      as (k & run & [[-> _] | (lt & r & eq & shape)]); [exact run |].
    rewrite eq in exhausted. cbn [fst] in exhausted.
    destruct shape
      as [(out & _ & ->) | [(e & _ & _ & _ & ->) | (e & _ & _ & ->)]];
      discriminate.
  - intros run. now rewrite (detectKpis_three_rounds serialize llm input run).
Qed.

(** X4. A rate-limit error never reaches the caller.  When [detectKpis]
    rejects with an error it caught, that error came from one of the first
    three calls, and it is not a rate-limit error: its message is a string
    in which ['429 Too Many Requests'] does not occur, or an array that
    does not have this string as an element. *)
Theorem detectKpis_caught_inv (input : DetectKpisInput) (error : JsValue) :
  fst (detectKpis serialize llm input) = Rejected (Caught error) ->
  (exists m, getMessage error = Normal m /\
     ((exists s, m = JsString s /\ ~ Occurs "429 Too Many Requests" s) \/
      (exists items, m = JsArray items /\
                     ~ In (JsString "429 Too Many Requests") items))) /\
  exists k,
    (k < 3)%nat /\
    rateLimitedRun llm (renderPrompt serialize input) k /\
    llm k (renderPrompt serialize input) = Failure error.
Proof.
  intros rejected.
  destruct (detectKpis_decided input)
    as (k & run & [[_ eq] | (lt & r & eq & shape)]);
    rewrite eq in rejected; cbn [fst] in rejected; [discriminate |].
  destruct shape
    as [(out & _ & ->) | [(e & ko & msg & other & ->) | (e & _ & _ & ->)]];
    [discriminate | | discriminate].
  injection rejected as <-. split.
  - destruct msg as (m & read & [(s & ->) | (items & ->)]).
    + exists (JsString s). split; [exact read |].
      left. exists s. split; [reflexivity |]. intros occ. apply other.
      exists (JsString s). split; [exact read |]. left. now exists s.
    + exists (JsArray items). split; [exact read |].
      right. exists items. split; [reflexivity |]. intros here. apply other.
      exists (JsArray items). split; [exact read |]. right. now exists items.
  - exists k. now repeat split.
Qed.

(** X5. The flow puts a [TypeError] of its own in the place of a caught
    value for one reason only.  When [detectKpis] rejects with the
    [TypeError] raised by the test of its catch block, and not with a
    value it caught, one of the first three calls failed with a value that
    cannot be classified: not an object, or an object whose message is
    absent, [null], a boolean, a number or an object. *)
Theorem detectKpis_type_error_inv (input : DetectKpisInput) :
  fst (detectKpis serialize llm input) = Rejected TypeError ->
  exists k error,
    (k < 3)%nat /\
    rateLimitedRun llm (renderPrompt serialize input) k /\
    llm k (renderPrompt serialize input) = Failure error /\
    unclassifiable error.
Proof.
  intros rejected.
  destruct (detectKpis_decided input)
    as (k & run & [[_ eq] | (lt & r & eq & shape)]);
    rewrite eq in rejected; cbn [fst] in rejected; [discriminate |].
  destruct shape
    as [(out & _ & ->) | [(e & _ & _ & _ & ->) | (e & ko & none & ->)]];
    [discriminate | discriminate |].
  exists k, e. repeat split; try assumption.
  now apply unclassifiable_throws.
Qed.

(** X6. The backoff of a run adds up to 14000 ms when the flow gives up
    with the terminal error, and to at most 6000 ms in every other run. *)
Theorem detectKpis_total_sleep (input : DetectKpisInput) :
  (fst (detectKpis serialize llm input) =
     Rejected (Raised (newError exhaustedMessage)) /\
   totalSleep (trace (snd (detectKpis serialize llm input))) = 14000%N) \/
  (fst (detectKpis serialize llm input) <>
     Rejected (Raised (newError exhaustedMessage)) /\
   (totalSleep (trace (snd (detectKpis serialize llm input))) <= 6000)%N).
Proof.
  destruct (detectKpis_decided input)
    as (k & _ & [[-> eq] | (lt & r & eq & shape)]);
    rewrite eq; cbn [fst snd trace].
  - left. split; reflexivity.
  - right. split.
    + destruct shape
        as [(out & _ & ->) | [(e & _ & _ & _ & ->) | (e & _ & _ & ->)]];
        discriminate.
    + destruct k as [| [| [| k]]]; [| | | lia];
        unfold totalSleep; cbn; lia.
Qed.

(** C10, amended.  An error that cannot be classified, because it is
    not an object or because its [message] is absent, [null], a boolean, a
    number or an object, makes the test
    [error.message.includes('429 Too Many Requests')] throw a [TypeError]
    in the catch block: at whatever attempt it is caught, [detectKpis]
    rejects with that [TypeError] and not with the error it caught, and
    makes no further call. *)
Theorem detectKpis_type_error_when_unclassifiable
  (input : DetectKpisInput) (k : nat) (error : JsValue) :
  (k < 3)%nat ->
  rateLimitedRun llm (renderPrompt serialize input) k ->
  llm k (renderPrompt serialize input) = Failure error ->
  unclassifiable error ->
  messageIncludes error "429 Too Many Requests" = ThrowTypeError /\
  fst (detectKpis serialize llm input) = Rejected TypeError /\
  fst (detectKpis serialize llm input) <> Rejected (Caught error) /\
  trace (snd (detectKpis serialize llm input)) =
    (rounds (renderPrompt serialize input) 2000 k ++
     [Generate (renderPrompt serialize input)])%list.
Proof.
  intros lt run ko bare. apply unclassifiable_throws in bare.
  split; [now apply messageIncludes_throws |].
  rewrite (detectKpis_type_error_after input k error lt run ko bare).
  cbn [fst snd trace]. split; [reflexivity |]. split; [discriminate |].
  reflexivity.
Qed.

(** X9. What a run does besides calling the model.  The request is left
    as it was.  The warnings are the first [n] of "Retrying in 2
    seconds...", "... 4 ..." and "... 8 ...", the sleeps the first [n] of
    2000, 4000 and 8000 ms, and each warning is followed at once by the
    sleep it announces.  In a run that does not end with the terminal
    error there is one warning for each retry, [n] being the number of
    calls less one; in a run that does, there are three warnings for
    three calls. *)
Theorem detectKpis_effects (input : DetectKpisInput) :
  exists n,
    request (snd (detectKpis serialize llm input)) = input /\
    warnings (trace (snd (detectKpis serialize llm input))) =
      firstn n [ "Rate limit exceeded. Retrying in 2 seconds...";
                 "Rate limit exceeded. Retrying in 4 seconds...";
                 "Rate limit exceeded. Retrying in 8 seconds..." ] /\
    sleeps (trace (snd (detectKpis serialize llm input))) =
      firstn n [2000; 4000; 8000]%N /\
    ((fst (detectKpis serialize llm input) =
        Rejected (Raised (newError exhaustedMessage)) /\
      n = 3%nat /\
      callsMade (snd (detectKpis serialize llm input)) = 3%nat /\
      trace (snd (detectKpis serialize llm input)) =
        rounds (renderPrompt serialize input) 2000 3) \/
     (fst (detectKpis serialize llm input) <>
        Rejected (Raised (newError exhaustedMessage)) /\
      (n < 3)%nat /\
      callsMade (snd (detectKpis serialize llm input)) = S n /\
      trace (snd (detectKpis serialize llm input)) =
        (rounds (renderPrompt serialize input) 2000 n ++
         [Generate (renderPrompt serialize input)])%list)).
Proof.
  destruct (detectKpis_decided input)
    as (k & _ & [[at3 eq] | (lt & r & eq & shape)]);
    exists k; rewrite eq; cbn [fst snd request callsMade trace].
  - subst k. split; [reflexivity |]. split; [reflexivity |].
    split; [reflexivity |]. left. now repeat split.
  - split; [reflexivity |].
    assert (other : r <> Rejected (Raised (newError exhaustedMessage))).
    { destruct shape
        as [(out & _ & ->) | [(e & _ & _ & _ & ->) | (e & _ & _ & ->)]];
        discriminate. }
    destruct k as [| [| [| k]]]; [| | | lia];
      (split; [reflexivity |]); (split; [reflexivity |]); right;
      now repeat split.
Qed.

End Outcomes.

(** *** Calls that are never made *)

Section Locality.

Variable serialize : list SurveyRecord -> string.
Variables llm1 llm2 : Model.

Lemma retryLoop_agree (m : nat) :
  forall (st : RetryState) (req : DetectKpisInput) (c : nat)
         (t : list Event),
    attemptsLeft st = m ->
    (forall i, (c <= i < c + m)%nat ->
       llm1 i (renderPrompt serialize req) =
       llm2 i (renderPrompt serialize req)) ->
    retryLoop serialize llm1 st
      {| request := req; callsMade := c; trace := t |} =
    retryLoop serialize llm2 st
      {| request := req; callsMade := c; trace := t |}.
Proof.
  induction m as [| m IH]; intros st req c t left same;
    unfold attemptsLeft, maxRetries in left.
  - rewrite !retryLoop_exhausted; [reflexivity | |]; unfold maxRetries; lia.
  - assert (below : (retries st < maxRetries)%N) by (unfold maxRetries; lia).
    rewrite !retryLoop_eq, !detectKpisPrompt_eq.
    rewrite <- (same c) by lia.
    destruct (N.ltb_spec (retries st) maxRetries) as [_ | ge]; [| lia].
    destruct (llm1 c (renderPrompt serialize req)) as [output | error];
      [reflexivity |].
    unfold catchHandler.
    destruct (messageIncludes error rateLimitMarker) as [[|] |];
      [| reflexivity | reflexivity].
    unfold emit. cbn [request callsMade trace].
    apply IH.
    + unfold attemptsLeft, maxRetries. cbn [retries]. lia.
    + intros i range. apply same. lia.
Qed.

(** X7. Only the first three outcomes count: two models that agree on
    the first three calls for the prompt of the request lead [detectKpis]
    to the same result and the same trace, whatever they would answer
    later. *)
Theorem detectKpis_first_three_calls (input : DetectKpisInput) :
  (forall i, (i < 3)%nat ->
     llm1 i (renderPrompt serialize input) =
     llm2 i (renderPrompt serialize input)) ->
  detectKpis serialize llm1 input = detectKpis serialize llm2 input.
Proof.
  intros same. unfold detectKpis, detectKpisFlow.
  apply (retryLoop_agree 3); [reflexivity |].
  intros i range. apply same. lia.
Qed.

End Locality.


(** *** The catch block *)


(** X8. Only an object can be classified.  When the caught value is a
    string, a number, a boolean, [null] or [undefined], the test of the
    catch block throws: the handler leaves with a [TypeError] and without a
    warning or a sleep, even when the value is a string in which
    ['429 Too Many Requests'] occurs. *)
Theorem catchHandler_non_object (st : RetryState) (error : JsValue)
  (w : World) :
  (forall props, error <> JsObject props) ->
  catchHandler st error w = Throw TypeError w.
Proof.
  intros primitive. unfold catchHandler, messageIncludes.
  destruct error; try reflexivity. now elim (primitive props).
Qed.

(** *** The prompt *)

Lemma append_assoc (a b c : string) : (a ++ b) ++ c = a ++ (b ++ c).
Proof. induction a as [| x a IH]; simpl; [reflexivity | now rewrite IH]. Qed.


(** X10. The language clause of the prompt.  With no language, or with
    the empty string as language, the preamble is followed at once by the
    line of the survey data.  With any other language the note that names
    it stands between them, with the language as it was given, twice. *)
Theorem renderPrompt_language_clause
  (serialize : list SurveyRecord -> string) (input : DetectKpisInput) :
  (language input = None \/ language input = Some EmptyString ->
   renderPrompt serialize input =
   preamble ++ "
  Survey Data: " ++ serialize (surveyData input) ++ "
  ") /\
  (forall l,
     language input = Some l -> l <> EmptyString ->
     renderPrompt serialize input =
     preamble ++ "  Note: The survey data is in " ++ l ++
     " language. Please consider language-specific nuances when identifying KPIs. Column names and values may be in "
     ++ l ++ ".
" ++ "
  Survey Data: " ++ serialize (surveyData input) ++ "
  ").
Proof.
  destruct input as [rows lang]. cbn [language surveyData]. split.
  - intros [-> | ->]; reflexivity.
  - intros l -> filled. destruct l as [| c l]; [now elim filled |].
    unfold renderPrompt, render, promptTemplate.
    cbn [fold_right renderNode context language surveyData String.eqb
         Ascii.eqb Bool.eqb truthy interpolate languageBlock].
    rewrite !append_assoc. reflexivity.
Qed.


(* ===================================================================== *)
(** ** The properties on sample runs *)
(* ===================================================================== *)

Import Samples.

Lemma tooManyRequests_rateLimited : rateLimited tooManyRequests.
Proof.
  exists (JsString "Error fetching from the model: [429 Too Many Requests] Resource has been exhausted").
  split; [reflexivity |]. left.
  exists "Error fetching from the model: [429 Too Many Requests] Resource has been exhausted".
  split; [reflexivity |].
  now exists "Error fetching from the model: [", "] Resource has been exhausted".
Defined.

Lemma serverError_other :
  hasIncludes serverError /\ ~ rateLimited serverError.
Proof.
  apply messageIncludes_false. reflexivity.
Qed.

(** A server error on the second attempt is thrown again as it was
    caught, after the one backoff round. *)
Example server_error_after_one_rate_limit :
  detectKpis objectToString (rateLimitedFor 1 (Failure serverError))
    plainRequest =
  (Rejected (Caught serverError),
   {| request := plainRequest; callsMade := 2;
      trace := [Generate (renderPrompt objectToString plainRequest);
                Warn "Rate limit exceeded. Retrying in 2 seconds...";
                Sleep 2000;
                Generate (renderPrompt objectToString plainRequest)] |}).
Proof.
  apply (detectKpis_propagates_other_error objectToString
           (rateLimitedFor 1 (Failure serverError)) plainRequest 1
           serverError).
  - lia.
  - intros i lt. exists tooManyRequests.
    split; [| exact tooManyRequests_rateLimited].
    destruct i as [| i]; [reflexivity | lia].
  - reflexivity.
  - apply serverError_other.
  - apply serverError_other.
Qed.

Lemma bareStatus_no_message : ~ hasStringMessage bareStatus.
Proof. intros (s & msg). discriminate. Defined.

Example prompt_as_rendered :
  renderedPrompt frenchRequest = renderPrompt objectToString frenchRequest.
Proof. reflexivity. Qed.

(** A model that is rate limited for [k] calls is so on every prompt. *)
Lemma rateLimitedFor_run (k : nat) (after : Outcome) (prompt : string) :
  rateLimitedRun (rateLimitedFor k after) prompt k.
Proof.
  intros i lt. exists tooManyRequests.
  split; [| exact tooManyRequests_rateLimited].
  unfold rateLimitedFor.
  destruct (Nat.ltb_spec i k) as [_ | ge]; [reflexivity | lia].
Defined.

Example prompt_without_language :
  renderPrompt objectToString plainRequest =
  preamble ++ "
  Survey Data: [object Object],[object Object]
  ".
Proof. reflexivity. Qed.

Example prompt_in_french :
  renderPrompt objectToString frenchRequest =
  preamble ++ "  Note: The survey data is in fr language. Please consider language-specific nuances when identifying KPIs. Column names and values may be in fr.
" ++ "
  Survey Data: [object Object],[object Object]
  ".
Proof. reflexivity. Qed.

Lemma detectKpis_succeeds_after_backoff_witness :
  fst (detectKpis objectToString
         (rateLimitedFor 2 (Success (Some ageKpi))) plainRequest) =
    Resolved (Some ageKpi) /\
  callsMade (snd (detectKpis objectToString
                    (rateLimitedFor 2 (Success (Some ageKpi)))
                    plainRequest)) = 3%nat /\
  sleeps (trace (snd (detectKpis objectToString
                        (rateLimitedFor 2 (Success (Some ageKpi)))
                        plainRequest))) = [2000; 4000]%N /\
  [2000; 4000]%N = backoff 2.
Proof.
  apply (detectKpis_succeeds_after_backoff objectToString
           (rateLimitedFor 2 (Success (Some ageKpi))) plainRequest 2
           (Some ageKpi)).
  - lia.
  - apply rateLimitedFor_run.
  - reflexivity.
Defined.

Lemma detectKpis_exhausts_after_three_rate_limits_witness :
  fst (detectKpis objectToString (rateLimitedFor 3 (Success (Some ageKpi)))
         plainRequest) =
    Rejected (Raised (newError exhaustedMessage)) /\
  getMessage (newError exhaustedMessage) =
    Normal (JsString
      "Failed to detect KPIs after multiple retries due to rate limiting.") /\
  callsMade (snd (detectKpis objectToString
                    (rateLimitedFor 3 (Success (Some ageKpi)))
                    plainRequest)) = 3%nat /\
  prompts (trace (snd (detectKpis objectToString
                         (rateLimitedFor 3 (Success (Some ageKpi)))
                         plainRequest))) =
    repeat (renderPrompt objectToString plainRequest) 3.
Proof.
  apply (detectKpis_exhausts_after_three_rate_limits objectToString
           (rateLimitedFor 3 (Success (Some ageKpi))) plainRequest).
  apply rateLimitedFor_run.
Defined.

(** C3, at an input where the code departs from it.  The first call
    rejects with a value that has no [message]: it is not a rate-limit
    error, yet [detectKpis] rejects with a [TypeError] and the value itself
    is lost.  The same happens on the second attempt, after one rate-limit
    failure. *)
Theorem detectKpis_drops_error_without_message :
  ~ rateLimited bareStatus /\
  fst (detectKpis objectToString (rateLimitedFor 0 (Failure bareStatus))
         plainRequest) = Rejected TypeError /\
  fst (detectKpis objectToString (rateLimitedFor 0 (Failure bareStatus))
         plainRequest) <> Rejected (Caught bareStatus) /\
  fst (detectKpis objectToString (rateLimitedFor 1 (Failure bareStatus))
         plainRequest) = Rejected TypeError.
Proof.
  split.
  - intros (m & [= <-] & [(s & [=] & _) | (items & [=] & _)]).
  - split; [reflexivity |]. split; [discriminate | reflexivity].
Qed.

Lemma detectKpis_sleeps_after_last_attempt_witness :
  fst (detectKpis objectToString (rateLimitedFor 3 (Success (Some ageKpi)))
         plainRequest) =
    Rejected (Raised (newError exhaustedMessage)) /\
  (exists before,
     trace (snd (detectKpis objectToString
                   (rateLimitedFor 3 (Success (Some ageKpi)))
                   plainRequest)) =
     (before ++ [Generate (renderPrompt objectToString plainRequest);
                 Warn "Rate limit exceeded. Retrying in 8 seconds...";
                 Sleep 8000])%list) /\
  sleeps (trace (snd (detectKpis objectToString
                        (rateLimitedFor 3 (Success (Some ageKpi)))
                        plainRequest))) = [2000; 4000; 8000]%N.
Proof.
  apply (detectKpis_sleeps_after_last_attempt objectToString
           (rateLimitedFor 3 (Success (Some ageKpi))) plainRequest).
  apply rateLimitedFor_run.
Defined.

Lemma detectKpis_first_attempt_success_witness :
  ~ In "revenue" (columns plainRequest) /\
  fst (detectKpis objectToString (answersAtOnce (Some strayKpi))
         plainRequest) = Resolved (Some strayKpi) /\
  trace (snd (detectKpis objectToString (answersAtOnce (Some strayKpi))
                plainRequest)) =
    [Generate (renderPrompt objectToString plainRequest)] /\
  callsMade (snd (detectKpis objectToString (answersAtOnce (Some strayKpi))
                    plainRequest)) = 1%nat /\
  sleeps (trace (snd (detectKpis objectToString
                        (answersAtOnce (Some strayKpi)) plainRequest))) =
    [] /\
  warnings (trace (snd (detectKpis objectToString
                          (answersAtOnce (Some strayKpi)) plainRequest))) =
    [].
Proof.
  split.
  - cbn. intros [eq | [eq | [eq | [eq | []]]]]; discriminate.
  - apply (detectKpis_first_attempt_success objectToString
             (answersAtOnce (Some strayKpi)) plainRequest (Some strayKpi)).
    reflexivity.
Defined.

Lemma detectKpis_resolved_inv_witness :
  exists k,
    (k < 3)%nat /\
    rateLimitedRun (rateLimitedFor 2 (Success (Some ageKpi)))
      (renderPrompt objectToString plainRequest) k /\
    rateLimitedFor 2 (Success (Some ageKpi)) k
      (renderPrompt objectToString plainRequest) = Success (Some ageKpi).
Proof.
  apply (detectKpis_resolved_inv objectToString
           (rateLimitedFor 2 (Success (Some ageKpi))) plainRequest
           (Some ageKpi)).
  reflexivity.
Defined.

Lemma detectKpis_caught_inv_witness :
  (exists m, getMessage listedFailure = Normal m /\
     ((exists s, m = JsString s /\ ~ Occurs "429 Too Many Requests" s) \/
      (exists items, m = JsArray items /\
                     ~ In (JsString "429 Too Many Requests") items))) /\
  exists k,
    (k < 3)%nat /\
    rateLimitedRun (rateLimitedFor 1 (Failure listedFailure))
      (renderPrompt objectToString plainRequest) k /\
    rateLimitedFor 1 (Failure listedFailure) k
      (renderPrompt objectToString plainRequest) = Failure listedFailure.
Proof.
  apply (detectKpis_caught_inv objectToString
           (rateLimitedFor 1 (Failure listedFailure)) plainRequest
           listedFailure).
  reflexivity.
Defined.

Lemma detectKpis_type_error_inv_witness :
  exists k error,
    (k < 3)%nat /\
    rateLimitedRun (rateLimitedFor 1 (Failure bareStatus))
      (renderPrompt objectToString plainRequest) k /\
    rateLimitedFor 1 (Failure bareStatus) k
      (renderPrompt objectToString plainRequest) = Failure error /\
    unclassifiable error.
Proof.
  apply (detectKpis_type_error_inv objectToString
           (rateLimitedFor 1 (Failure bareStatus)) plainRequest).
  reflexivity.
Defined.

Lemma detectKpis_first_three_calls_witness :
  detectKpis objectToString (rateLimitedFor 1 (Success (Some ageKpi)))
    plainRequest =
  detectKpis objectToString answersThenBreaks plainRequest.
Proof.
  apply (detectKpis_first_three_calls objectToString
           (rateLimitedFor 1 (Success (Some ageKpi))) answersThenBreaks
           plainRequest).
  intros i lt. destruct i as [| [| [| i]]]; [reflexivity .. | lia].
Defined.

Lemma catchHandler_non_object_witness :
  catchHandler initialState (JsString "429 Too Many Requests")
    {| request := plainRequest; callsMade := 1; trace := [] |} =
  Throw TypeError {| request := plainRequest; callsMade := 1; trace := [] |}.
Proof.
  apply (catchHandler_non_object initialState
           (JsString "429 Too Many Requests")).
  intros props. discriminate.
Defined.



(** C8, at an input where the code departs from it.  For the two records
    of the example the prompt carries the text
    [[object Object],[object Object]] where the records should be: neither
    the column [satisfaction] nor the value 45 occurs in it, and two other
    records give the very same prompt. *)
Theorem renderedPrompt_shows_no_record :
  renderedPrompt plainRequest =
  preamble ++ "
  Survey Data: [object Object],[object Object]
  " /\
  ~ Occurs "satisfaction" (renderedPrompt plainRequest) /\
  ~ Occurs "45" (renderedPrompt plainRequest) /\
  renderedPrompt {| surveyData := otherRecords; language := None |} =
  renderedPrompt plainRequest.
Proof.
  split; [reflexivity |]. split; [| split; [| reflexivity]].
  - intros occ. apply includes_spec in occ. vm_compute in occ. discriminate.
  - intros occ. apply includes_spec in occ. vm_compute in occ. discriminate.
Qed.

Lemma detectKpis_warns_without_retry_witness :
  request (snd (detectKpis objectToString
                  (rateLimitedFor 3 (Success (Some ageKpi)))
                  plainRequest)) = plainRequest /\
  callsMade (snd (detectKpis objectToString
                    (rateLimitedFor 3 (Success (Some ageKpi)))
                    plainRequest)) = 3%nat /\
  prompts (trace (snd (detectKpis objectToString
                         (rateLimitedFor 3 (Success (Some ageKpi)))
                         plainRequest))) =
    repeat (renderPrompt objectToString plainRequest) 3 /\
  warnings (trace (snd (detectKpis objectToString
                          (rateLimitedFor 3 (Success (Some ageKpi)))
                          plainRequest))) =
    [ "Rate limit exceeded. Retrying in 2 seconds...";
      "Rate limit exceeded. Retrying in 4 seconds...";
      "Rate limit exceeded. Retrying in 8 seconds..." ] /\
  (exists before,
     trace (snd (detectKpis objectToString
                   (rateLimitedFor 3 (Success (Some ageKpi)))
                   plainRequest)) =
     (before ++ [Warn "Rate limit exceeded. Retrying in 8 seconds...";
                 Sleep 8000])%list).
Proof.
  apply (detectKpis_warns_without_retry objectToString
           (rateLimitedFor 3 (Success (Some ageKpi))) plainRequest).
  apply rateLimitedFor_run.
Defined.

(** C10, as stated, fails: the message of this error is not a string, it
    is the array [['x']], and the test does not throw.  It answers false,
    and [detectKpis] rejects with the error it caught. *)
Lemma array_message_is_no_type_error :
  ~ hasStringMessage listedFailure /\
  messageIncludes listedFailure "429 Too Many Requests" = Normal false /\
  fst (detectKpis objectToString (rateLimitedFor 0 (Failure listedFailure))
         plainRequest) = Rejected (Caught listedFailure) /\
  fst (detectKpis objectToString (rateLimitedFor 0 (Failure listedFailure))
         plainRequest) <> Rejected TypeError.
Proof.
  split; [intros (s & [=]) |].
  split; [reflexivity |]. split; [reflexivity | discriminate].
Qed.

Lemma detectKpis_type_error_when_unclassifiable_witness :
  messageIncludes bareStatus "429 Too Many Requests" = ThrowTypeError /\
  fst (detectKpis objectToString (rateLimitedFor 1 (Failure bareStatus))
         plainRequest) = Rejected TypeError /\
  fst (detectKpis objectToString (rateLimitedFor 1 (Failure bareStatus))
         plainRequest) <> Rejected (Caught bareStatus) /\
  trace (snd (detectKpis objectToString
                (rateLimitedFor 1 (Failure bareStatus)) plainRequest)) =
    [ Generate (renderPrompt objectToString plainRequest);
      Warn "Rate limit exceeded. Retrying in 2 seconds...";
      Sleep 2000;
      Generate (renderPrompt objectToString plainRequest) ].
Proof.
  apply (detectKpis_type_error_when_unclassifiable objectToString
           (rateLimitedFor 1 (Failure bareStatus)) plainRequest 1
           bareStatus).
  - lia.
  - apply rateLimitedFor_run.
  - reflexivity.
  - exact I.
Defined.

Lemma renderPrompt_language_clause_witness :
  renderPrompt recordsToString frenchRequest =
  preamble ++ "  Note: The survey data is in fr language. Please consider language-specific nuances when identifying KPIs. Column names and values may be in fr.
" ++ "
  Survey Data: [object Object],[object Object]
  ".
Proof.
  apply (proj2 (renderPrompt_language_clause recordsToString frenchRequest)
           "fr").
  - reflexivity.
  - discriminate.
Defined.

